(** * geoloc_util: a shallow embedding of [src/geoloc_util.py]

    The program resolves location strings (city/state names or zip codes)
    through the Open Weather geocoding API.  This file embeds

    - the Python values the program handles (decoded JSON, strings, dicts),
    - the built-in operations the program applies to them ([str.strip],
      [str.isdigit], [len], truthiness, [in], subscripting, [dict.get],
      f-string interpolation), each with the exception it raises where
      Python raises one,
    - the functions of [geoloc_util.py] in a state-and-exception monad whose
      state holds the outside world answering [requests.get], the requests
      sent so far and the lines printed so far,

    and proves the properties of the specification about them. *)

From Stdlib Require Import ZArith String Ascii List Bool DecimalString.
From Stdlib Require Import Floats.SpecFloat.
From stdpp Require Import base option list gmap strings.

Set Warnings "-register-all".
Set Default Proof Using "Type".

Local Open Scope Z_scope.
Local Open Scope string_scope.

(** ** Python values *)

(** A decoded JSON document, as [response.json()] returns it: [None], a
    [bool], an [int] (unbounded), a [float] (a binary64 number), a [str], a
    [list] or a [dict] with [str] keys.  The dicts the program builds itself
    (error records, location records, query parameters) are of the same
    type. *)
Inductive pyval : Type :=
| PNone
| PBool (b : bool)
| PInt (z : Z)
| PFloat (f : spec_float)
| PStr (s : string)
| PList (l : list pyval)
| PDict (d : gmap string pyval).

(** A response as the program uses it: [MockResponse] of
    [src/test_geoloc_util.py], the repository's stand-in for
    [requests.Response] (the library itself is not part of the repository). *)
Record response : Type := MockResponse {
  json_data : pyval;
  status_code : Z
}.

(** The exceptions the program can meet.  The first four are the classes of
    [requests.exceptions] that [fetch_api_data] names in its [except]
    clauses; [RequestException] stands for a request exception that is an
    instance of none of the three classes named before it.  The others are
    built-in exceptions raised by operations on values of the wrong type. *)
Inductive exn : Type :=
| Timeout
| ConnectionError
| HTTPError (e_response : response)
| RequestException
| KeyError
| IndexError
| TypeError
| AttributeError.

(** The result of evaluating an expression: a value, or a raised exception. *)
Inductive outcome (A : Type) : Type :=
| Ok (a : A)
| Raise (e : exn).
Arguments Ok {A} a.
Arguments Raise {A} e.

(** ** Strings

    A Python [str] is a sequence of code points.  The embedding covers the
    strings over U+0000..U+00FF: the character [ascii_of_N n] stands for the
    code point [n]. *)

Definition ord (c : ascii) : N := N_of_ascii c.

(** [c.isspace()] on U+0000..U+00FF: the characters TAB, LF, VT, FF, CR,
    FS, GS, RS, US, SPACE, NEL (U+0085) and NO-BREAK SPACE (U+00A0). *)
Definition isspace (c : ascii) : bool :=
  let n := ord c in
  ((9 <=? n) && (n <=? 13) || (28 <=? n) && (n <=? 32)
   || (n =? 133) || (n =? 160))%N.

(** [c.isdigit()] on U+0000..U+00FF: the ten decimal digits and the three
    superscript digits U+00B2, U+00B3 and U+00B9, which Unicode gives the
    numeric type Digit. *)
Definition isdigit_char (c : ascii) : bool :=
  let n := ord c in
  ((48 <=? n) && (n <=? 57) || (n =? 178) || (n =? 179) || (n =? 185))%N.

(** The ten characters '0'..'9'. *)
Definition is_decimal_digit (c : ascii) : bool :=
  let n := ord c in ((48 <=? n) && (n <=? 57))%N.

Fixpoint string_forall (p : ascii -> bool) (s : string) : bool :=
  match s with
  | EmptyString => true
  | String c s' => p c && string_forall p s'
  end.

(** [s.isdigit()]: every character is a digit and there is at least one. *)
Definition isdigit (s : string) : bool :=
  match s with
  | EmptyString => false
  | String _ _ => string_forall isdigit_char s
  end.

(** [len(s)] *)
Definition len (s : string) : Z := Z.of_nat (String.length s).

Fixpoint lstrip (s : string) : string :=
  match s with
  | EmptyString => EmptyString
  | String c s' => if isspace c then lstrip s' else s
  end.

Fixpoint rstrip (s : string) : string :=
  match s with
  | EmptyString => EmptyString
  | String c s' =>
      match rstrip s' with
      | EmptyString => if isspace c then EmptyString else String c EmptyString
      | r => String c r
      end
  end.

(** [s.strip()] *)
Definition strip (s : string) : string := rstrip (lstrip s).

(** [needle in hay] on two strings: [needle] occurs as a substring. *)
Fixpoint str_contains (needle hay : string) : bool :=
  String.prefix needle hay ||
  match hay with
  | EmptyString => false
  | String _ hay' => str_contains needle hay'
  end.

(** [str(z)] for an [int]. *)
Definition int_str (z : Z) : string := NilZero.string_of_int (Z.to_int z).

(** ** Built-in operations on values *)

(** [bool(v)], as [if not data] and [if result.get("state")] test it. *)
Definition truthy (v : pyval) : bool :=
  match v with
  | PNone => false
  | PBool b => b
  | PInt z => negb (Z.eqb z 0)
  | PFloat (S754_zero _) => false
  | PFloat _ => true
  | PStr s => negb (String.eqb s "")
  | PList l => match l with [] => false | _ :: _ => true end
  | PDict d => negb (bool_decide (dom d = ∅))
  end.

(** [v == s] for a string [s] *)
Definition eq_str (s : string) (v : pyval) : bool :=
  match v with
  | PStr s' => String.eqb s' s
  | _ => false
  end.

(** [k in v] for a string [k]: key membership in a dict, element membership
    in a list, substring test in a string, [TypeError] otherwise. *)
Definition py_in (k : string) (v : pyval) : outcome bool :=
  match v with
  | PDict d => Ok (bool_decide (is_Some (d !! k)))
  | PList l => Ok (existsb (eq_str k) l)
  | PStr s => Ok (str_contains k s)
  | _ => Raise TypeError
  end.

(** [v[k]] for a string [k] *)
Definition getitem (v : pyval) (k : string) : outcome pyval :=
  match v with
  | PDict d => match d !! k with Some x => Ok x | None => Raise KeyError end
  | _ => Raise TypeError
  end.

(** [v[0]].  The keys of a decoded JSON object are strings, so [0] is never
    among them. *)
Definition getitem0 (v : pyval) : outcome pyval :=
  match v with
  | PList (x :: _) => Ok x
  | PList [] => Raise IndexError
  | PStr (String c _) => Ok (PStr (String c EmptyString))
  | PStr EmptyString => Raise IndexError
  | PDict _ => Raise KeyError
  | _ => Raise TypeError
  end.

(** [v.get(k, dflt)] *)
Definition get (v : pyval) (k : string) (dflt : pyval) : outcome pyval :=
  match v with
  | PDict d => Ok (default dflt (d !! k))
  | _ => Raise AttributeError
  end.

(** [{'error': msg}] *)
Definition error_record (msg : string) : pyval :=
  PDict {[ "error" := PStr msg ]}.

(** The location record [get_location_info] builds. *)
Definition location_record (name lat lon state country : pyval) : pyval :=
  PDict {[ "name" := name; "lat" := lat; "lon" := lon;
           "state" := state; "country" := country ]}.

(** ** The outside world *)

(** One call of [requests.get(url, params=params, timeout=timeout)]. *)
Record request : Type := Request {
  req_url : string;
  req_params : gmap string pyval;
  req_timeout : Z
}.

(** What the call does: it raises or returns a response. *)
Definition reply : Type := (exn + response)%type.

(** ** The program *)

#[global] Instance outcome_ret : MRet outcome := fun A a => Ok a.
#[global] Instance outcome_bind : MBind outcome := fun A B f m =>
  match m with
  | Ok a => f a
  | Raise e => Raise e
  end.

(** [BASE_URL] *)
Definition BASE_URL : string := "http://api.openweathermap.org/geo/1.0".

Section Geoloc.

(** The outside world: its states, and how it answers a call of
    [requests.get] in a given state. *)
Context {world : Type}.
Variable requests_get : request -> world -> reply * world.

(** [API_KEY], read from the environment at start-up. *)
Variable API_KEY : string.

(** [repr] of the values whose text the program never builds itself:
    floats, lists and dicts. *)
Variable repr : pyval -> string.

(** The state a run threads: the world, the calls of [requests.get] made
    so far (oldest first) and the lines printed so far (oldest first). *)
Record state : Type := State {
  net : world;
  sent : list request;
  stdout : list string
}.

(** A computation reads and updates the state and returns a value or
    raises an exception. *)
Definition M (A : Type) : Type := state -> outcome A * state.

#[local] Instance M_ret : MRet M := fun A a s => (Ok a, s).
#[local] Instance M_bind : MBind M := fun A B f m s =>
  match m s with
  | (Ok a, s') => f a s'
  | (Raise e, s') => (Raise e, s')
  end.

(** An expression without effects, evaluated inside a computation. *)
Definition lift {A : Type} (o : outcome A) : M A := fun s => (o, s).

(** [try: body except ...:]: [handlers e] is the body of the first
    [except] clause that matches [e], if there is one. *)
Definition try_except {A : Type} (body : M A) (handlers : exn -> option (M A))
  : M A := fun s =>
  match body s with
  | (Ok a, s') => (Ok a, s')
  | (Raise e, s') =>
      match handlers e with
      | Some h => h s'
      | None => (Raise e, s')
      end
  end.

(** [requests.get(url, params=params, timeout=timeout)] *)
Definition get_request (url : string) (params : gmap string pyval)
  (timeout : Z) : M response := fun s =>
  let req := Request url params timeout in
  let (r, w) := requests_get req (net s) in
  let s' := State w (sent s ++ [req]) (stdout s) in
  match r with
  | inl e => (Raise e, s')
  | inr resp => (Ok resp, s')
  end.

(** [print(v)] *)
Definition print (line : string) : M unit := fun s =>
  (Ok tt, State (net s) (sent s) (stdout s ++ [line])).

(** [MockResponse.raise_for_status] *)
Definition raise_for_status (self : response) : outcome unit :=
  if (status_code self >=? 400)%Z then Raise (HTTPError self) else Ok tt.

(** [MockResponse.json] *)
Definition json (self : response) : pyval := json_data self.

(** [str(v)], which is also what [f'{v}'] interpolates. *)
Definition py_str (v : pyval) : string :=
  match v with
  | PStr s => s
  | PInt z => int_str z
  | PBool true => "True"
  | PBool false => "False"
  | PNone => "None"
  | _ => repr v
  end.

(** [fetch_api_data(endpoint, params)].  The calls of [logger] write to
    the log only and are left out. *)
Definition fetch_api_data (endpoint : string) (params : gmap string pyval)
  : M pyval :=
  let url := BASE_URL +:+ "/" +:+ endpoint in
  try_except
    (response ← get_request url params 10;
     _ ← lift (raise_for_status response);
     let data := json response in
     if negb (truthy data) then
       mret (error_record "No data returned from API")
     else
       if String.eqb endpoint "direct" then lift (getitem0 data)
       else mret data)
    (fun e =>
       match e with
       | Timeout => Some (mret (error_record "API request timed out"))
       | ConnectionError => Some (mret (error_record "API connection failed"))
       | HTTPError e_response =>
           Some (let status_code := status_code e_response in
                 if (status_code =? 401)%Z then
                   mret (error_record "Invalid API key")
                 else if (status_code =? 429)%Z then
                   mret (error_record "API rate limit exceeded")
                 else
                   mret (error_record ("API error: " +:+ int_str status_code)))
       | RequestException => Some (mret (error_record "Unexpected API error"))
       | _ => None
       end).

(** [fetch_location_by_city_state(query)] *)
Definition fetch_location_by_city_state (query : string) : M pyval :=
  let params : gmap string pyval :=
    {[ "q" := PStr (query +:+ ",US"); "limit" := PInt 1;
       "appid" := PStr API_KEY ]} in
  fetch_api_data "direct" params.

(** [fetch_location_by_zip(zip_code)] *)
Definition fetch_location_by_zip (zip_code : string) : M pyval :=
  let params : gmap string pyval :=
    {[ "zip" := PStr (zip_code +:+ ",US"); "appid" := PStr API_KEY ]} in
  fetch_api_data "zip" params.

(** The test of [get_location_info] on the stripped input:
    [location.isdigit() and len(location) == 5]. *)
Definition is_zip (location : string) : bool :=
  isdigit location && (len location =? 5)%Z.

(** Lines 65-69 of [get_location_info]: strip the input and fetch through
    the endpoint its kind selects. *)
Definition fetch_location (location : string) : M pyval :=
  let location := strip location in
  if is_zip location then fetch_location_by_zip location
  else fetch_location_by_city_state location.

(** Lines 71-79 of [get_location_info]: hand an error on, or build the
    location record. *)
Definition normalize (data : pyval) : outcome pyval :=
  is_error ← py_in "error" data;
  if is_error : bool then mret data
  else
    name ← get data "name" (PStr "");
    lat ← get data "lat" (PStr "");
    lon ← get data "lon" (PStr "");
    state ← get data "state" (PStr "");
    country ← get data "country" (PStr "US");
    mret (location_record name lat lon state country).

(** [get_location_info(location)] *)
Definition get_location_info (location : string) : M pyval :=
  data ← fetch_location location;
  lift (normalize data).

(** [process_locations(locations)] *)
Fixpoint process_locations (locations : list string) : M (list pyval) :=
  match locations with
  | [] => mret []
  | location :: rest =>
      result ← get_location_info location;
      results ← process_locations rest;
      mret (result :: results)
  end.

(** [format_location(result)] *)
Definition format_location (result : pyval) : outcome pyval :=
  is_error ← py_in "error" result;
  if is_error : bool then getitem result "error"
  else
    st ← get result "state" PNone;
    state ← (if truthy st then
               v ← getitem result "state"; mret (", " +:+ py_str v)
             else mret "");
    name ← getitem result "name";
    lat ← getitem result "lat";
    lon ← getitem result "lon";
    mret (PStr ("Location: " +:+ py_str name +:+ state +:+ " - Lat: "
                +:+ py_str lat +:+ ", Lon: " +:+ py_str lon)).

(** The loop of [main]: [for result in results: print(format_location(result))] *)
Fixpoint print_results (results : list pyval) : M unit :=
  match results with
  | [] => mret tt
  | result :: rest =>
      line ← lift (format_location result);
      _ ← print (py_str line);
      print_results rest
  end.

(** [main()], from the parsed [args.locations] on. *)
Definition main (locations : list string) : M unit :=
  results ← process_locations locations;
  print_results results.

(** *** Notions used to state the properties *)

(** The request [fetch_api_data endpoint params] sends. *)
Definition request_of (endpoint : string) (params : gmap string pyval)
  : request :=
  Request (BASE_URL +:+ "/" +:+ endpoint) params 10.

(** The endpoint and the parameters [fetch_location] queries for an input
    (lemma [fetch_location_eq]). *)
Definition query_endpoint (location : string) : string :=
  if is_zip (strip location) then "zip" else "direct".

Definition query_params (location : string) : gmap string pyval :=
  if is_zip (strip location) then
    {[ "zip" := PStr (strip location +:+ ",US"); "appid" := PStr API_KEY ]}
  else
    {[ "q" := PStr (strip location +:+ ",US"); "limit" := PInt 1;
       "appid" := PStr API_KEY ]}.

(** The state after one request [req] that moved the world to [w]. *)
Definition after_request (s : state) (req : request) (w : world) : state :=
  State w (sent s ++ [req]) (stdout s).

(** The message [fetch_api_data] gives an HTTP error of a given status. *)
Definition http_error_message (status : Z) : string :=
  if (status =? 401)%Z then "Invalid API key"
  else if (status =? 429)%Z then "API rate limit exceeded"
  else "API error: " +:+ int_str status.

(** What [fetch_api_data] returns on an endpoint, as a function of the
    reply to its request (lemma [fetch_api_data_answer]). *)
Definition answer (endpoint : string) (r : reply) : outcome pyval :=
  match r with
  | inl Timeout => Ok (error_record "API request timed out")
  | inl ConnectionError => Ok (error_record "API connection failed")
  | inl (HTTPError resp) =>
      Ok (error_record (http_error_message (status_code resp)))
  | inl RequestException => Ok (error_record "Unexpected API error")
  | inl e => Raise e
  | inr resp =>
      if (status_code resp >=? 400)%Z then
        Ok (error_record (http_error_message (status_code resp)))
      else if truthy (json_data resp) then
        if String.eqb endpoint "direct" then getitem0 (json_data resp)
        else Ok (json_data resp)
      else Ok (error_record "No data returned from API")
  end.

(** The parameters as they go on the wire: every value through [str]. *)
Definition wire_params (params : gmap string pyval) : gmap string string :=
  py_str <$> params.


Definition is_request_exception (e : exn) : bool :=
  match e with
  | Timeout | ConnectionError | HTTPError _ | RequestException => true
  | _ => false
  end.





End Geoloc.

Arguments State {world} net sent stdout.

(** The record the normalization step is specified to build from a payload
    [d]: each field by name, with its default. *)
Definition normalized (d : gmap string pyval) : pyval :=
  location_record
    (default (PStr "") (d !! "name"))
    (default (PStr "") (d !! "lat"))
    (default (PStr "") (d !! "lon"))
    (default (PStr "") (d !! "state"))
    (default (PStr "US") (d !! "country")).

(** ** Sample worlds *)

(** U+00B2, SUPERSCRIPT TWO *)
Definition superscript_two : ascii := ascii_of_N 178.

(** The string of five superscript twos. *)
Definition five_superscripts : string :=
  String superscript_two (String superscript_two (String superscript_two
    (String superscript_two (String superscript_two EmptyString)))).

(** A world without state that gives every request the same reply. *)
Definition always (r : reply) : request -> unit -> reply * unit :=
  fun _ w => (r, w).

(** A [repr] that writes the floats [m * 2^0] as Python does and leaves
    every other value as an ellipsis. *)
Definition sample_repr (v : pyval) : string :=
  match v with
  | PFloat (S754_finite false m 0) => int_str (Zpos m) +:+ ".0"
  | PFloat (S754_finite true m 0) => "-" +:+ int_str (Zpos m) +:+ ".0"
  | _ => "..."
  end.

Definition madison : gmap string pyval :=
  {[ "name" := PStr "Madison";
     "lat" := PFloat (S754_finite false 43 0);
     "lon" := PFloat (S754_finite true 89 0);
     "state" := PStr "WI";
     "country" := PStr "US" ]}.

(** An answer of the zip endpoint: no state field. *)
Definition madison_zip : gmap string pyval :=
  {[ "zip" := PStr "53703";
     "name" := PStr "Madison";
     "lat" := PFloat (S754_finite false 43 0);
     "lon" := PFloat (S754_finite true 89 0);
     "country" := PStr "US" ]}.

(** A payload that carries a field named error. *)
Definition flagged : gmap string pyval :=
  {[ "error" := PStr "boom"; "name" := PStr "Madison" ]}.

(** A world that counts the requests it has answered: the first two are
    served (the zip endpoint knows Madison, the direct endpoint finds
    nothing), every later one is refused with status 429. *)
Definition metered (req : request) (served : nat) : reply * nat :=
  if (2 <=? served)%nat then
    (inr (MockResponse (PDict ∅) 429), S served)
  else if String.eqb (req_url req) (BASE_URL +:+ "/zip") then
    (inr (MockResponse (PDict madison_zip) 200), S served)
  else
    (inr (MockResponse (PList []) 200), S served).

(** The state at start-up, in the world [w]. *)
Definition start {world : Type} (w : world) : @state world := State w [] [].

(** The request [get_location_info] sends for an input. *)
Definition query_request (API_KEY location : string) : request :=
  request_of (query_endpoint location) (query_params API_KEY location).

(** ** Start-up *)

(** What importing the module ends in: the key is bound, or [ValueError]
    is raised with a message. *)
Inductive startup : Type :=
| Started (API_KEY : string)
| ValueError (message : string).

(** Lines 10-13 of the module: [API_KEY = os.environ.get(...)], where [get]
    gives [None] for a variable that is not set, and the test
    [if not API_KEY], which [None] and the empty string both pass. *)
Definition load_api_key (environ : gmap string string) : startup :=
  let API_KEY := environ !! "OPENWEATHER_API_KEY" in
  if negb (match API_KEY with
           | Some key => negb (String.eqb key "")
           | None => false
           end)
  then ValueError "OPENWEATHER_API_KEY environment variable is required"
  else Started (default "" API_KEY).

(** * Properties *)

(** ** Strings and classification *)

Lemma is_zip_spec (s : string) :
  is_zip s = true <->
  String.length s = 5%nat /\ string_forall isdigit_char s = true.
Proof.
  unfold is_zip, isdigit, len. rewrite andb_true_iff, Z.eqb_eq.
  destruct s as [|c s]; simpl.
  - split; [intros [? _] | intros [? _]]; discriminate.
  - split; intros [H1 H2]; split; try done; lia.
Qed.

Lemma isdigit_char_below_128 (c : ascii) :
  (ord c < 128)%N -> isdigit_char c = is_decimal_digit c.
Proof.
  unfold isdigit_char, is_decimal_digit. intros H.
  destruct (_ && _); simpl; [done |].
  rewrite !orb_false_iff, !N.eqb_neq. lia.
Qed.

Lemma string_forall_impl (p q : ascii -> bool) (s : string) :
  (forall c, p c = true -> q c = true) ->
  string_forall p s = true -> string_forall q s = true.
Proof.
  intros Hpq. induction s as [|c s IH]; simpl; [done |].
  rewrite !andb_true_iff. intros [? ?]. auto.
Qed.

Lemma string_forall_digits_below_128 (s : string) :
  string_forall (fun c => (ord c <? 128)%N) s = true ->
  string_forall isdigit_char s = string_forall is_decimal_digit s.
Proof.
  induction s as [|c s IH]; simpl; [done |].
  rewrite andb_true_iff, N.ltb_lt. intros [Hc Hs].
  by rewrite IH, isdigit_char_below_128.
Qed.

(** On a string of ASCII characters the test is the one for a zip code:
    five characters, each of them one of '0'..'9'. *)
Lemma is_zip_ascii (s : string) :
  string_forall (fun c => (ord c <? 128)%N) s = true ->
  is_zip s = true <->
  String.length s = 5%nat /\ string_forall is_decimal_digit s = true.
Proof.
  intros H. rewrite is_zip_spec. by rewrite string_forall_digits_below_128.
Qed.

Lemma is_decimal_digit_isdigit (c : ascii) :
  is_decimal_digit c = true -> isdigit_char c = true.
Proof.
  unfold isdigit_char, is_decimal_digit. intros ->. done.
Qed.

(** Five decimal digits are always taken for a zip code. *)
Lemma is_zip_of_decimal_digits (s : string) :
  String.length s = 5%nat -> string_forall is_decimal_digit s = true ->
  is_zip s = true.
Proof.
  intros Hlen Hdig. apply is_zip_spec. split; [done |].
  eapply string_forall_impl; [apply is_decimal_digit_isdigit | done].
Qed.

Lemma lstrip_no_leading_space (s : string) :
  match lstrip s with
  | EmptyString => True
  | String c _ => isspace c = false
  end.
Proof.
  induction s as [|c s IH]; simpl; [done |].
  destruct (isspace c) eqn:E; [done | by simpl].
Qed.

Lemma int_str_500 : int_str 500 = "500".
Proof. reflexivity. Qed.

(** ** The upstream caller *)

Section Caller.

Context {world : Type}.
Variable requests_get : request -> world -> reply * world.

(** [fetch_api_data] sends one request and returns what [answer] says. *)
Lemma fetch_api_data_answer endpoint params (s : state) r w :
  requests_get (request_of endpoint params) (net s) = (r, w) ->
  fetch_api_data requests_get endpoint params s =
    (answer endpoint r, after_request s (request_of endpoint params) w).
Proof.
  intros H. unfold fetch_api_data, try_except, mbind, M_bind, get_request.
  change (Request (BASE_URL +:+ "/" +:+ endpoint) params 10)
    with (request_of endpoint params).
  rewrite H. unfold answer, http_error_message, after_request.
  destruct r as [e | resp].
  - destruct e; try reflexivity.
    destruct (status_code e_response =? 401)%Z; [reflexivity |].
    destruct (status_code e_response =? 429)%Z; reflexivity.
  - unfold raise_for_status, lift, json.
    destruct (status_code resp >=? 400)%Z.
    + destruct (status_code resp =? 401)%Z; [reflexivity |].
      destruct (status_code resp =? 429)%Z; reflexivity.
    + destruct (truthy (json_data resp)); cbn [negb]; [| reflexivity].
      destruct (String.eqb endpoint "direct"); [| reflexivity].
      destruct (json_data resp) as [| | | | [|] | [|] |]; reflexivity.
Qed.


(** C3: a response with status below 400 whose decoded body is the empty
    list or the empty object makes [fetch_api_data] return the error
    record with message "No data returned from API", on either endpoint. *)
Theorem fetch_api_data_empty_body endpoint params (s : state) resp w :
  requests_get (request_of endpoint params) (net s) = (inr resp, w) ->
  status_code resp < 400 ->
  json_data resp = PList [] \/ json_data resp = PDict ∅ ->
  fetch_api_data requests_get endpoint params s =
    (Ok (PDict {[ "error" := PStr "No data returned from API" ]}),
     after_request s (request_of endpoint params) w).
Proof.
  intros H Hst Hbody. rewrite (fetch_api_data_answer _ _ _ _ _ H).
  unfold answer.
  assert ((status_code resp >=? 400)%Z = false) as -> by lia.
  by destruct Hbody as [-> | ->].
Qed.

(** C4: a response with status below 400 and a non-empty body makes
    [fetch_api_data] succeed: on the direct endpoint it returns the first
    element of the list received, on the zip endpoint the object received
    itself. *)
Theorem fetch_api_data_payload params (s : state) resp w :
  status_code resp < 400 ->
  (forall (x : pyval) (l : list pyval),
     requests_get (request_of "direct" params) (net s) = (inr resp, w) ->
     json_data resp = PList (x :: l) ->
     fetch_api_data requests_get "direct" params s =
       (Ok x, after_request s (request_of "direct" params) w)) /\
  (forall d : gmap string pyval,
     requests_get (request_of "zip" params) (net s) = (inr resp, w) ->
     json_data resp = PDict d -> d <> ∅ ->
     fetch_api_data requests_get "zip" params s =
       (Ok (PDict d), after_request s (request_of "zip" params) w)).
Proof.
  intros Hst.
  assert ((status_code resp >=? 400)%Z = false) as Hge by lia.
  split.
  - intros x l H Hbody. rewrite (fetch_api_data_answer _ _ _ _ _ H).
    unfold answer. by rewrite Hge, Hbody.
  - intros d H Hbody Hne. rewrite (fetch_api_data_answer _ _ _ _ _ H).
    unfold answer. rewrite Hge, Hbody. cbn [truthy].
    rewrite bool_decide_eq_false_2; [done |].
    by rewrite dom_empty_iff_L.
Qed.

(** C7: when the request times out [fetch_api_data] returns the error
    record "API request timed out"; when the connection fails, "API
    connection failed"; on a request exception that none of the clauses
    before covers, "Unexpected API error". *)
Theorem fetch_api_data_transport_failure endpoint params (s : state) e w :
  requests_get (request_of endpoint params) (net s) = (inl e, w) ->
  (e = Timeout ->
   fetch_api_data requests_get endpoint params s =
     (Ok (PDict {[ "error" := PStr "API request timed out" ]}),
      after_request s (request_of endpoint params) w)) /\
  (e = ConnectionError ->
   fetch_api_data requests_get endpoint params s =
     (Ok (PDict {[ "error" := PStr "API connection failed" ]}),
      after_request s (request_of endpoint params) w)) /\
  (e = RequestException ->
   fetch_api_data requests_get endpoint params s =
     (Ok (PDict {[ "error" := PStr "Unexpected API error" ]}),
      after_request s (request_of endpoint params) w)).
Proof.
  intros H. rewrite (fetch_api_data_answer _ _ _ _ _ H).
  repeat split; by intros ->.
Qed.

End Caller.

(** ** Classification, query building and normalization *)

Section Lookup.

Context {world : Type}.
Variable requests_get : request -> world -> reply * world.
Variable API_KEY : string.
Variable repr : pyval -> string.

(** The parameters of the two queries. *)
Lemma fetch_location_by_zip_eq zip_code :
  fetch_location_by_zip requests_get API_KEY zip_code =
  fetch_api_data requests_get "zip"
    {[ "zip" := PStr (zip_code +:+ ",US"); "appid" := PStr API_KEY ]}.
Proof. reflexivity. Qed.

Lemma fetch_location_by_city_state_eq query :
  fetch_location_by_city_state requests_get API_KEY query =
  fetch_api_data requests_get "direct"
    {[ "q" := PStr (query +:+ ",US"); "limit" := PInt 1;
       "appid" := PStr API_KEY ]}.
Proof. reflexivity. Qed.

(** Every call of [fetch_api_data] sends exactly its own request. *)
Lemma fetch_api_data_sent endpoint params (s : state) :
  sent (fetch_api_data requests_get endpoint params s).2 =
  (sent s ++ [request_of endpoint params])%list.
Proof.
  destruct (requests_get (request_of endpoint params) (net s)) as [r w] eqn:H.
  by rewrite (fetch_api_data_answer _ _ _ _ _ _ H).
Qed.

Lemma fetch_api_data_stdout endpoint params (s : state) :
  stdout (fetch_api_data requests_get endpoint params s).2 = stdout s.
Proof.
  destruct (requests_get (request_of endpoint params) (net s)) as [r w] eqn:H.
  by rewrite (fetch_api_data_answer _ _ _ _ _ _ H).
Qed.

(** [get_location_info] is the fetch followed by the normalization, which
    leaves the state alone. *)
Lemma get_location_info_eq location (s : state) :
  get_location_info requests_get API_KEY location s =
  ((fetch_location requests_get API_KEY location s).1 ≫= normalize,
   (fetch_location requests_get API_KEY location s).2).
Proof.
  unfold get_location_info, mbind at 1, M_bind, lift.
  by destruct (fetch_location requests_get API_KEY location s) as [[data | e] s'].
Qed.

Lemma get_location_info_ok location (s : state) data s' :
  fetch_location requests_get API_KEY location s = (Ok data, s') ->
  get_location_info requests_get API_KEY location s = (normalize data, s').
Proof. intros H. by rewrite get_location_info_eq, H. Qed.

(** C8: an input classified as a zip code is sent to the zip endpoint
    with the parameters zip = the stripped input followed by ",US" and the
    API key; every other input is sent to the direct endpoint with q = the
    stripped input followed by ",US", limit = 1 (on the wire "1") and the
    API key.  Exactly one request is sent. *)
Theorem get_location_info_query location (s : state) :
  (is_zip (strip location) = true ->
   let params : gmap string pyval :=
     {[ "zip" := PStr (strip location +:+ ",US"); "appid" := PStr API_KEY ]} in
   sent (get_location_info requests_get API_KEY location s).2 =
     (sent s ++ [Request (BASE_URL +:+ "/zip") params 10])%list /\
   wire_params repr params =
     {[ "zip" := strip location +:+ ",US"; "appid" := API_KEY ]}) /\
  (is_zip (strip location) = false ->
   let params : gmap string pyval :=
     {[ "q" := PStr (strip location +:+ ",US"); "limit" := PInt 1;
        "appid" := PStr API_KEY ]} in
   sent (get_location_info requests_get API_KEY location s).2 =
     (sent s ++ [Request (BASE_URL +:+ "/direct") params 10])%list /\
   wire_params repr params =
     {[ "q" := strip location +:+ ",US"; "limit" := "1";
        "appid" := API_KEY ]}).
Proof.
  split; intros Hkind params.
  - split.
    + rewrite get_location_info_eq. cbn [snd].
      unfold fetch_location. rewrite Hkind, fetch_location_by_zip_eq.
      apply fetch_api_data_sent.
    + unfold wire_params, params. by rewrite !fmap_insert, map_fmap_singleton.
  - split.
    + rewrite get_location_info_eq. cbn [snd].
      unfold fetch_location. rewrite Hkind, fetch_location_by_city_state_eq.
      apply fetch_api_data_sent.
    + unfold wire_params, params. by rewrite !fmap_insert, map_fmap_singleton.
Qed.

End Lookup.


(** ** The formatter *)

Section Formatter.

Variable repr : pyval -> string.

Lemma py_in_dict_true (d : gmap string pyval) k v :
  d !! k = Some v -> py_in k (PDict d) = Ok true.
Proof.
  intros H. unfold py_in. by rewrite bool_decide_eq_true_2; [| rewrite H].
Qed.

Lemma py_in_dict_false (d : gmap string pyval) k :
  d !! k = None -> py_in k (PDict d) = Ok false.
Proof.
  intros H. unfold py_in. rewrite bool_decide_eq_false_2; [done |].
  rewrite H. by intros [? ?].
Qed.

(** A result with the key error is rendered as the value under it. *)
Lemma format_location_error (d : gmap string pyval) v :
  d !! "error" = Some v -> format_location repr (PDict d) = Ok v.
Proof.
  intros H. unfold format_location.
  rewrite (py_in_dict_true _ _ _ H). cbn. by rewrite H.
Qed.

(** A result without the key error and with the fields name, lat and lon is
    rendered as a location line; the state is written when the result has
    one that is true. *)
Lemma format_location_fields (d : gmap string pyval) name lat lon :
  d !! "error" = None ->
  d !! "name" = Some name -> d !! "lat" = Some lat -> d !! "lon" = Some lon ->
  format_location repr (PDict d) =
    Ok (PStr ("Location: " +:+ py_str repr name
              +:+ match d !! "state" with
                  | Some st => if truthy st then ", " +:+ py_str repr st else ""
                  | None => ""
                  end
              +:+ " - Lat: " +:+ py_str repr lat
              +:+ ", Lon: " +:+ py_str repr lon)).
Proof.
  intros Herr Hname Hlat Hlon. unfold format_location.
  rewrite (py_in_dict_false _ _ Herr). cbn.
  destruct (d !! "state") as [st |] eqn:Hst; cbn.
  - destruct (truthy st); cbn; by rewrite ?Hst, Hname, Hlat, Hlon.
  - by rewrite Hname, Hlat, Hlon.
Qed.

(** C6: for an error record [format_location] returns its message as it
    is; for a location record it returns "Location: " + name + (", " + state
    when the state is not empty) + " - Lat: " + latitude + ", Lon: " +
    longitude. *)
Theorem format_location_spec (d : gmap string pyval) :
  (forall msg : pyval,
     d !! "error" = Some msg -> format_location repr (PDict d) = Ok msg) /\
  (forall (name state : string) (lat lon : pyval),
     d !! "error" = None ->
     d !! "name" = Some (PStr name) -> d !! "state" = Some (PStr state) ->
     d !! "lat" = Some lat -> d !! "lon" = Some lon ->
     format_location repr (PDict d) =
       Ok (PStr ("Location: " +:+ name
                 +:+ (if decide (state = "") then "" else ", " +:+ state)
                 +:+ " - Lat: " +:+ py_str repr lat
                 +:+ ", Lon: " +:+ py_str repr lon))).
Proof.
  split.
  - intros msg. apply format_location_error.
  - intros name state lat lon Herr Hname Hstate Hlat Hlon.
    rewrite (format_location_fields _ _ _ _ Herr Hname Hlat Hlon), Hstate.
    cbn [truthy py_str]. destruct (decide (state = "")) as [-> | Hne]; [done |].
    by destruct state.
Qed.

End Formatter.


(** ** The pipeline *)

Section Pipeline.

Context {world : Type}.
Variable requests_get : request -> world -> reply * world.
Variable API_KEY : string.
Variable repr : pyval -> string.

Lemma normalize_error (d : gmap string pyval) v :
  d !! "error" = Some v -> normalize (PDict d) = Ok (PDict d).
Proof.
  intros H. unfold normalize. by rewrite (py_in_dict_true _ _ _ H).
Qed.

Lemma normalize_payload (d : gmap string pyval) :
  d !! "error" = None -> normalize (PDict d) = Ok (normalized d).
Proof.
  intros H. unfold normalize. by rewrite (py_in_dict_false _ _ H).
Qed.

Lemma normalized_no_error (d : gmap string pyval) :
  exists d' : gmap string pyval,
    normalized d = PDict d' /\ d' !! "error" = None /\
    d' !! "name" = Some (default (PStr "") (d !! "name")) /\
    d' !! "lat" = Some (default (PStr "") (d !! "lat")) /\
    d' !! "lon" = Some (default (PStr "") (d !! "lon")) /\
    d' !! "state" = Some (default (PStr "") (d !! "state")).
Proof.
  eexists. split; [reflexivity |]. by simplify_map_eq.
Qed.

(** The line of a normalized record. *)
Lemma format_location_normalized (d : gmap string pyval) :
  exists rest : string,
    format_location repr (normalized d) = Ok (PStr ("Location: " +:+ rest)).
Proof.
  destruct (normalized_no_error d) as (d' & -> & Herr & Hname & Hlat & Hlon & _).
  rewrite (format_location_fields _ _ _ _ _ Herr Hname Hlat Hlon).
  eexists. reflexivity.
Qed.

(** C5 (as amended): [get_location_info] returns an error record from the
    upstream call unchanged, and from a successful payload that has no field
    named error it builds the record with name from "name" else "",
    latitude from "lat" else "", longitude from "lon" else "", state from
    "state" else "" and country from "country" else "US", the values taken
    over as they are. *)
Theorem get_location_info_normalizes location (s : state) data s' :
  fetch_location requests_get API_KEY location s = (Ok data, s') ->
  (forall msg : string,
     data = PDict {[ "error" := PStr msg ]} ->
     get_location_info requests_get API_KEY location s = (Ok data, s')) /\
  (forall d : gmap string pyval,
     data = PDict d -> d !! "error" = None ->
     get_location_info requests_get API_KEY location s =
       (Ok (PDict {[ "name" := default (PStr "") (d !! "name");
                     "lat" := default (PStr "") (d !! "lat");
                     "lon" := default (PStr "") (d !! "lon");
                     "state" := default (PStr "") (d !! "state");
                     "country" := default (PStr "US") (d !! "country") ]}),
        s')).
Proof.
  intros H. rewrite (get_location_info_ok _ _ _ _ _ _ H). split.
  - intros msg ->.
    by rewrite (normalize_error _ (PStr msg)); [| apply lookup_singleton_eq].
  - intros d -> Herr. by rewrite (normalize_payload _ Herr).
Qed.

(** C10: a result is an error exactly when it has the key error.  A
    successful payload with a field named error comes back from
    [get_location_info] unchanged and [format_location] returns the value of
    that field; a payload without it is normalized and rendered as a
    "Location: ..." line. *)
Theorem error_key_decides location (s : state) (d : gmap string pyval) s' :
  fetch_location requests_get API_KEY location s = (Ok (PDict d), s') ->
  (forall v : pyval,
     d !! "error" = Some v ->
     get_location_info requests_get API_KEY location s = (Ok (PDict d), s') /\
     format_location repr (PDict d) = Ok v) /\
  (d !! "error" = None ->
   get_location_info requests_get API_KEY location s = (Ok (normalized d), s') /\
   exists rest : string,
     format_location repr (normalized d) = Ok (PStr ("Location: " +:+ rest))).
Proof.
  intros H. rewrite (get_location_info_ok _ _ _ _ _ _ H). split.
  - intros v Hv. rewrite (normalize_error _ _ Hv).
    split; [done | by apply format_location_error].
  - intros Herr. rewrite (normalize_payload _ Herr).
    split; [done | apply format_location_normalized].
Qed.

(** *** Processing a list of inputs *)

Lemma fetch_location_eq location :
  fetch_location requests_get API_KEY location =
  fetch_api_data requests_get (query_endpoint location)
    (query_params API_KEY location).
Proof.
  unfold fetch_location, query_endpoint, query_params.
  by destruct (is_zip (strip location)).
Qed.

(** One input costs one request; the result is a function of the input and
    of the reply. *)
Lemma get_location_info_reply location (s : state) r w :
  let req := request_of (query_endpoint location) (query_params API_KEY location) in
  requests_get req (net s) = (r, w) ->
  get_location_info requests_get API_KEY location s =
    (answer (query_endpoint location) r ≫= normalize, after_request s req w).
Proof.
  intros req H. rewrite get_location_info_eq, fetch_location_eq.
  by rewrite (fetch_api_data_answer _ _ _ _ _ _ H).
Qed.





End Pipeline.


(** ** Classification of the inputs *)

(** The endpoint an input goes to is decided by [str.isdigit] and [len] on
    the stripped input; no input makes the decision fail. *)
Lemma query_endpoint_zip_iff (location : string) :
  query_endpoint location = "zip" <->
  String.length (strip location) = 5%nat /\
  string_forall isdigit_char (strip location) = true.
Proof.
  rewrite <- is_zip_spec. unfold query_endpoint.
  destruct (is_zip (strip location)); split; intros H; done.
Qed.

Lemma query_endpoint_total (location : string) :
  query_endpoint location = "zip" \/ query_endpoint location = "direct".
Proof.
  unfold query_endpoint. destruct (is_zip (strip location)); auto.
Qed.

(** C1 (the code at the failing input): the string of five superscript
    twos, U+00B2, is left as it is by [strip], has length 5 and holds no
    decimal digit, and [get_location_info] sends it to the zip endpoint. *)
Theorem five_superscripts_sent_to_zip {world : Type}
  (requests_get : request -> world -> reply * world) (API_KEY : string)
  (s : @state world) :
  strip five_superscripts = five_superscripts /\
  String.length five_superscripts = 5%nat /\
  string_forall (fun c => negb (is_decimal_digit c)) five_superscripts = true /\
  sent (get_location_info requests_get API_KEY five_superscripts s).2 =
    (sent s ++ [Request (BASE_URL +:+ "/zip")
                  {[ "zip" := PStr (five_superscripts +:+ ",US");
                     "appid" := PStr API_KEY ]} 10])%list.
Proof.
  repeat split.
  rewrite get_location_info_eq, fetch_location_eq. cbn [snd].
  apply fetch_api_data_sent.
Qed.


(** ** The properties on sample worlds *)


(** The run of [main] in the metered world: a location, an empty result
    and a refused request, one line each. *)
Example main_metered :
  stdout (main metered "KEY" sample_repr
            ["53703"; "InvalidCity, XX"; "Chicago, IL"] (start 0%nat)).2 =
  ["Location: Madison - Lat: 43.0, Lon: -89.0";
   "No data returned from API";
   "API rate limit exceeded"].
Proof. vm_compute. reflexivity. Qed.


Lemma fetch_api_data_empty_body_witness :
  200 < 400 /\
  fetch_api_data (always (inr (MockResponse (PList []) 200))) "direct" ∅ (start tt) =
    (Ok (PDict {[ "error" := PStr "No data returned from API" ]}),
     after_request (start tt) (request_of "direct" ∅) tt).
Proof.
  split; [lia |].
  apply (fetch_api_data_empty_body
           (always (inr (MockResponse (PList []) 200))) "direct" ∅ (start tt)
           (MockResponse (PList []) 200) tt);
    [reflexivity | simpl; lia | left; reflexivity].
Defined.

Lemma fetch_api_data_payload_witness :
  200 < 400 /\
  fetch_api_data (always (inr (MockResponse (PList [PDict madison]) 200)))
    "direct" ∅ (start tt) =
    (Ok (PDict madison), after_request (start tt) (request_of "direct" ∅) tt) /\
  fetch_api_data (always (inr (MockResponse (PDict madison_zip) 200)))
    "zip" ∅ (start tt) =
    (Ok (PDict madison_zip), after_request (start tt) (request_of "zip" ∅) tt).
Proof.
  split; [lia |]. split.
  - apply (proj1 (fetch_api_data_payload
             (always (inr (MockResponse (PList [PDict madison]) 200))) ∅ (start tt)
             (MockResponse (PList [PDict madison]) 200) tt ltac:(simpl; lia))
             (PDict madison) []); reflexivity.
  - apply (proj2 (fetch_api_data_payload
             (always (inr (MockResponse (PDict madison_zip) 200))) ∅ (start tt)
             (MockResponse (PDict madison_zip) 200) tt ltac:(simpl; lia))
             madison_zip); [reflexivity | reflexivity |].
    intros H. apply (f_equal (fun m : gmap string pyval => m !! "name")) in H.
    vm_compute in H. discriminate H.
Defined.

Lemma fetch_api_data_transport_failure_witness :
  fetch_api_data (always (inl Timeout)) "zip" ∅ (start tt) =
    (Ok (PDict {[ "error" := PStr "API request timed out" ]}),
     after_request (start tt) (request_of "zip" ∅) tt) /\
  fetch_api_data (always (inl ConnectionError)) "direct" ∅ (start tt) =
    (Ok (PDict {[ "error" := PStr "API connection failed" ]}),
     after_request (start tt) (request_of "direct" ∅) tt) /\
  fetch_api_data (always (inl RequestException)) "direct" ∅ (start tt) =
    (Ok (PDict {[ "error" := PStr "Unexpected API error" ]}),
     after_request (start tt) (request_of "direct" ∅) tt).
Proof.
  split; [| split].
  - apply (fetch_api_data_transport_failure (always (inl Timeout))
             "zip" ∅ (start tt) Timeout tt); reflexivity.
  - apply (fetch_api_data_transport_failure (always (inl ConnectionError))
             "direct" ∅ (start tt) ConnectionError tt); reflexivity.
  - apply (fetch_api_data_transport_failure (always (inl RequestException))
             "direct" ∅ (start tt) RequestException tt); reflexivity.
Defined.

Lemma get_location_info_query_witness :
  is_zip (strip " 53703 ") = true /\
  is_zip (strip "Madison, WI") = false /\
  sent (get_location_info metered "KEY" " 53703 " (start 0%nat)).2 =
    [Request "http://api.openweathermap.org/geo/1.0/zip"
       {[ "zip" := PStr "53703,US"; "appid" := PStr "KEY" ]} 10] /\
  sent (get_location_info metered "KEY" "Madison, WI" (start 0%nat)).2 =
    [Request "http://api.openweathermap.org/geo/1.0/direct"
       {[ "q" := PStr "Madison, WI,US"; "limit" := PInt 1;
          "appid" := PStr "KEY" ]} 10] /\
  wire_params sample_repr
    {[ "q" := PStr "Madison, WI,US"; "limit" := PInt 1; "appid" := PStr "KEY" ]} =
    {[ "q" := "Madison, WI,US"; "limit" := "1"; "appid" := "KEY" ]}.
Proof.
  split; [reflexivity |]. split; [reflexivity |]. split; [| split].
  - apply (proj1 (get_location_info_query metered "KEY" sample_repr
                    " 53703 " (start 0%nat))). reflexivity.
  - apply (proj2 (get_location_info_query metered "KEY" sample_repr
                    "Madison, WI" (start 0%nat))). reflexivity.
  - apply (proj2 (get_location_info_query metered "KEY" sample_repr
                    "Madison, WI" (start 0%nat))). reflexivity.
Defined.

Lemma format_location_spec_witness :
  format_location sample_repr (error_record "API request timed out") =
    Ok (PStr "API request timed out") /\
  format_location sample_repr (PDict madison) =
    Ok (PStr "Location: Madison, WI - Lat: 43.0, Lon: -89.0") /\
  format_location sample_repr
    (location_record (PStr "Madison") (PStr "") (PStr "") (PStr "") (PStr "US")) =
    Ok (PStr "Location: Madison - Lat: , Lon: ").
Proof.
  split; [| split].
  - apply (proj1 (format_location_spec sample_repr
                    {[ "error" := PStr "API request timed out" ]})).
    reflexivity.
  - apply (proj2 (format_location_spec sample_repr madison)
             "Madison" "WI" (PFloat (S754_finite false 43 0))
             (PFloat (S754_finite true 89 0))); reflexivity.
  - apply (proj2 (format_location_spec sample_repr
                    {[ "name" := PStr "Madison"; "lat" := PStr "";
                       "lon" := PStr ""; "state" := PStr "";
                       "country" := PStr "US" ]})
             "Madison" "" (PStr "") (PStr "")); reflexivity.
Defined.

(** C5 (as the claim states it) fails: a successful payload that carries a
    field named error is returned as it is, without the defaults of the
    normalized record. *)
Lemma get_location_info_keeps_flagged_payload :
  let upstream := always (inr (MockResponse (PDict flagged) 200)) in
  200 < 400 /\
  truthy (PDict flagged) = true /\
  (fetch_location upstream "KEY" "53703" (start tt)).1 = Ok (PDict flagged) /\
  (get_location_info upstream "KEY" "53703" (start tt)).1 = Ok (PDict flagged) /\
  (get_location_info upstream "KEY" "53703" (start tt)).1 <> Ok (normalized flagged).
Proof.
  intros upstream. split; [lia |]. split; [reflexivity |].
  split; [reflexivity |]. split; [reflexivity |].
  intros H.
  assert (Hd : PDict flagged = normalized flagged).
  { change (get_location_info upstream "KEY" "53703" (start tt)).1
      with (Ok (A := pyval) (PDict flagged)) in H. congruence. }
  apply (f_equal (fun v => match v with PDict m => m !! "lat" | _ => None end))
    in Hd.
  vm_compute in Hd. discriminate Hd.
Qed.

Lemma get_location_info_normalizes_witness :
  (get_location_info (always (inl Timeout)) "KEY" "53703" (start tt)).1 =
    Ok (PDict {[ "error" := PStr "API request timed out" ]}) /\
  (get_location_info (always (inr (MockResponse (PDict madison_zip) 200)))
     "KEY" "53703" (start tt)).1 =
    Ok (PDict {[ "name" := PStr "Madison";
                 "lat" := PFloat (S754_finite false 43 0);
                 "lon" := PFloat (S754_finite true 89 0);
                 "state" := PStr "";
                 "country" := PStr "US" ]}).
Proof.
  split.
  - refine (f_equal fst
      (proj1 (get_location_info_normalizes (always (inl Timeout)) "KEY"
                "53703" (start tt)
                (PDict {[ "error" := PStr "API request timed out" ]})
                _ eq_refl)
         "API request timed out" eq_refl)).
  - refine (f_equal fst
      (proj2 (get_location_info_normalizes
                (always (inr (MockResponse (PDict madison_zip) 200))) "KEY"
                "53703" (start tt) (PDict madison_zip) _ eq_refl)
         madison_zip eq_refl eq_refl)).
Defined.

Lemma error_key_decides_witness :
  (get_location_info (always (inr (MockResponse (PDict flagged) 200)))
     "KEY" "53703" (start tt)).1 = Ok (PDict flagged) /\
  format_location sample_repr (PDict flagged) = Ok (PStr "boom") /\
  (get_location_info (always (inr (MockResponse (PDict madison_zip) 200)))
     "KEY" "53703" (start tt)).1 = Ok (normalized madison_zip) /\
  exists rest : string,
    format_location sample_repr (normalized madison_zip) =
      Ok (PStr ("Location: " +:+ rest)).
Proof.
  pose proof (proj1 (error_key_decides
                (always (inr (MockResponse (PDict flagged) 200))) "KEY"
                sample_repr "53703" (start tt) flagged _ eq_refl)
                (PStr "boom") eq_refl) as [H1 H2].
  pose proof (proj2 (error_key_decides
                (always (inr (MockResponse (PDict madison_zip) 200))) "KEY"
                sample_repr "53703" (start tt) madison_zip _ eq_refl)
                eq_refl) as [H3 H4].
  split; [exact (f_equal fst H1) |]. split; [exact H2 |].
  split; [exact (f_equal fst H3) | exact H4].
Defined.


(** The cases the specification names: a leading zero keeps a zip code a zip
    code; four or six digits go to the direct endpoint. *)
Example query_endpoint_samples :
  query_endpoint "02138" = "zip" /\
  query_endpoint "  53703 " = "zip" /\
  query_endpoint "1234" = "direct" /\
  query_endpoint "123456" = "direct" /\
  query_endpoint "Madison, WI" = "direct" /\
  query_endpoint "" = "direct".
Proof. by vm_compute. Qed.

(** Outside the wire contract a run can stop: when the direct endpoint
    answers with a list that holds a number, the membership test of
    [get_location_info] raises [TypeError] and nothing is printed. *)
Example main_outside_contract :
  main (always (inr (MockResponse (PList [PInt 1]) 200))) "KEY" sample_repr
    ["Madison, WI"; "53703"] (start tt) =
  (Raise TypeError,
   State tt [request_of "direct" (query_params "KEY" "Madison, WI")] []).
Proof. reflexivity. Qed.


(** * Further properties of the code *)

(** ** Stripping *)

Lemma lstrip_idem (s : string) : lstrip (lstrip s) = lstrip s.
Proof.
  induction s as [| c s IH]; simpl; [done |].
  destruct (isspace c) eqn:E; [done |]. simpl. by rewrite E.
Qed.

Lemma rstrip_idem (s : string) : rstrip (rstrip s) = rstrip s.
Proof.
  induction s as [| c s IH]; simpl; [done |].
  destruct (rstrip s) as [| c' r] eqn:E.
  - destruct (isspace c) eqn:Ec; simpl; [done | by rewrite Ec].
  - simpl in *. by rewrite IH.
Qed.

(** [rstrip] keeps a first character that is not white space. *)
Lemma rstrip_head (c : ascii) (s : string) :
  isspace c = false -> exists r, rstrip (String c s) = String c r.
Proof.
  intros Hc. simpl. destruct (rstrip s); rewrite ?Hc; eauto.
Qed.

Lemma lstrip_rstrip_lstrip (s : string) :
  lstrip (rstrip (lstrip s)) = rstrip (lstrip s).
Proof.
  pose proof (lstrip_no_leading_space s) as H.
  destruct (lstrip s) as [| c t]; [done |].
  destruct (rstrip_head c t H) as [r ->]. simpl. by rewrite H.
Qed.

Lemma strip_idem (s : string) : strip (strip s) = strip s.
Proof.
  unfold strip. by rewrite lstrip_rstrip_lstrip, rstrip_idem.
Qed.

Lemma lstrip_blank (s : string) :
  string_forall isspace s = true -> lstrip s = "".
Proof.
  induction s as [| c s IH]; simpl; [done |].
  rewrite andb_true_iff. intros [-> Hs]. auto.
Qed.

Lemma string_forall_lstrip (p : ascii -> bool) (s : string) :
  string_forall p s = true -> string_forall p (lstrip s) = true.
Proof.
  induction s as [| c s IH]; simpl; [done |].
  rewrite andb_true_iff. intros [Hc Hs].
  destruct (isspace c); [auto |]. simpl. by rewrite Hc, Hs.
Qed.

Lemma string_forall_rstrip (p : ascii -> bool) (s : string) :
  string_forall p s = true -> string_forall p (rstrip s) = true.
Proof.
  induction s as [| c s IH]; simpl; [done |].
  rewrite andb_true_iff. intros [Hc Hs]. specialize (IH Hs).
  destruct (rstrip s) as [| c' r].
  - destruct (isspace c); simpl; [done | by rewrite Hc].
  - simpl in *. by rewrite Hc, IH.
Qed.

Lemma string_forall_strip (p : ascii -> bool) (s : string) :
  string_forall p s = true -> string_forall p (strip s) = true.
Proof.
  intros H. by apply string_forall_rstrip, string_forall_lstrip.
Qed.

(** ** Inputs *)

Section Inputs.

Context {world : Type}.
Variable requests_get : request -> world -> reply * world.
Variable API_KEY : string.

Lemma get_location_info_sent location (s : state) :
  sent (get_location_info requests_get API_KEY location s).2 =
  (sent s ++ [query_request API_KEY location])%list.
Proof.
  rewrite get_location_info_eq, fetch_location_eq. cbn [snd].
  apply fetch_api_data_sent.
Qed.

(** X1: white space around an input does not matter: [get_location_info]
    does on an input what it does on the stripped input. *)
Theorem get_location_info_strip location (s : state) :
  get_location_info requests_get API_KEY (strip location) s =
  get_location_info requests_get API_KEY location s.
Proof.
  rewrite !get_location_info_eq.
  assert (H : fetch_location requests_get API_KEY (strip location) =
              fetch_location requests_get API_KEY location).
  { unfold fetch_location. by rewrite strip_idem. }
  by rewrite H.
Qed.

(** X2: an input of ASCII characters goes to the zip endpoint exactly when,
    stripped, it is five characters long and each of them is one of
    '0'..'9'; otherwise it goes to the direct endpoint. *)
Theorem query_endpoint_ascii (location : string) :
  string_forall (fun c => (ord c <? 128)%N) location = true ->
  (query_endpoint location = "zip" <->
   String.length (strip location) = 5%nat /\
   string_forall is_decimal_digit (strip location) = true) /\
  (query_endpoint location = "direct" <->
   ~ (String.length (strip location) = 5%nat /\
      string_forall is_decimal_digit (strip location) = true)).
Proof.
  intros Hascii. apply (string_forall_strip _ location) in Hascii.
  pose proof (is_zip_ascii (strip location) Hascii) as Hzip.
  unfold query_endpoint. destruct (is_zip (strip location)).
  - split; [tauto |]. split; [discriminate |]. tauto.
  - split; [| split; [| done]].
    + split; [discriminate |]. intros H. apply Hzip in H. discriminate.
    + intros _ H. apply Hzip in H. discriminate.
Qed.

(** X3: an input that is empty or all white space is not refused: it is
    sent to the direct endpoint with the query ",US". *)
Theorem blank_input_queries_direct location (s : state) :
  string_forall isspace location = true ->
  sent (get_location_info requests_get API_KEY location s).2 =
  (sent s ++ [Request (BASE_URL +:+ "/direct")
                {[ "q" := PStr ",US"; "limit" := PInt 1;
                   "appid" := PStr API_KEY ]} 10])%list.
Proof.
  intros H. rewrite get_location_info_sent.
  unfold query_request, query_endpoint, query_params, strip.
  by rewrite (lstrip_blank _ H).
Qed.

End Inputs.

(** ** More on the upstream caller *)

(** The values Python takes for false. *)
Lemma truthy_false_iff (v : pyval) :
  truthy v = false <->
  v = PNone \/ v = PBool false \/ v = PInt 0 \/
  (exists sign, v = PFloat (S754_zero sign)) \/
  v = PStr "" \/ v = PList [] \/ v = PDict ∅.
Proof.
  split.
  - destruct v as [| [|] | z | f | str | l | d]; cbn; intros H; try discriminate.
    + tauto.
    + tauto.
    + apply negb_false_iff, Z.eqb_eq in H. subst. tauto.
    + destruct f; try discriminate. right; right; right; left. by eexists.
    + destruct str; [tauto | discriminate].
    + destruct l; [tauto | discriminate].
    + apply negb_false_iff, bool_decide_eq_true, dom_empty_iff_L in H.
      subst. tauto.
  - intros [-> | [-> | [-> | [[sign ->] | [-> | [-> | ->]]]]]]; reflexivity.
Qed.

Section CallerEdges.

Context {world : Type}.
Variable requests_get : request -> world -> reply * world.

(** X4: [fetch_api_data] lets no request exception out: an exception it
    raises is never a timeout, a connection error, an HTTP error or another
    request exception. *)
Theorem fetch_api_data_raises_no_request_exception endpoint params
  (s : state) e s' :
  fetch_api_data requests_get endpoint params s = (Raise e, s') ->
  is_request_exception e = false.
Proof.
  destruct (requests_get (request_of endpoint params) (net s)) as [r w] eqn:H.
  rewrite (fetch_api_data_answer _ _ _ _ _ _ H). intros [= Ha _].
  unfold answer in Ha. destruct r as [e0 | resp].
  - destruct e0; try discriminate; by injection Ha as <-.
  - destruct (status_code resp >=? 400)%Z; [discriminate |].
    destruct (truthy (json_data resp)); [| discriminate].
    destruct (String.eqb endpoint "direct"); [| discriminate].
    destruct (json_data resp) as [| | | | [|] | [|] |]; cbn in Ha;
      try discriminate; by injection Ha as <-.
Qed.

(** X5: whatever the reply, a call of [fetch_api_data] makes one request,
    to the base URL followed by the endpoint, with the parameters it was
    given and a timeout of 10, and prints nothing: there is no second
    attempt. *)
Theorem fetch_api_data_one_request endpoint params (s : state) :
  sent (fetch_api_data requests_get endpoint params s).2 =
    (sent s ++ [Request (BASE_URL +:+ "/" +:+ endpoint) params 10])%list /\
  stdout (fetch_api_data requests_get endpoint params s).2 = stdout s /\
  net (fetch_api_data requests_get endpoint params s).2 =
    (requests_get (Request (BASE_URL +:+ "/" +:+ endpoint) params 10) (net s)).2.
Proof.
  change (Request (BASE_URL +:+ "/" +:+ endpoint) params 10)
    with (request_of endpoint params).
  destruct (requests_get (request_of endpoint params) (net s)) as [r w] eqn:H.
  by rewrite (fetch_api_data_answer _ _ _ _ _ _ H).
Qed.

(** X6: below status 400 every body that Python takes for false, not only
    the empty list and the empty object, gives the error record "No data
    returned from API": null, false, 0, 0.0 and the empty string too. *)
Theorem fetch_api_data_false_body endpoint params (s : state) resp w :
  requests_get (request_of endpoint params) (net s) = (inr resp, w) ->
  status_code resp < 400 ->
  json_data resp = PNone \/ json_data resp = PBool false \/
  json_data resp = PInt 0 \/
  (exists sign, json_data resp = PFloat (S754_zero sign)) \/
  json_data resp = PStr "" \/ json_data resp = PList [] \/
  json_data resp = PDict ∅ ->
  fetch_api_data requests_get endpoint params s =
    (Ok (PDict {[ "error" := PStr "No data returned from API" ]}),
     after_request s (request_of endpoint params) w).
Proof.
  intros H Hst Hbody. apply truthy_false_iff in Hbody.
  rewrite (fetch_api_data_answer _ _ _ _ _ _ H). unfold answer.
  assert ((status_code resp >=? 400)%Z = false) as -> by lia.
  by rewrite Hbody.
Qed.

(** X7: on the direct endpoint a body below status 400 that is not a list
    is subscripted all the same: a non-empty object raises [KeyError], a
    number other than zero raises [TypeError], and a non-empty string gives
    its first character. *)
Theorem fetch_api_data_direct_not_a_list params (s : state) resp w :
  requests_get (request_of "direct" params) (net s) = (inr resp, w) ->
  status_code resp < 400 ->
  (forall d : gmap string pyval,
     json_data resp = PDict d -> d <> ∅ ->
     fetch_api_data requests_get "direct" params s =
       (Raise KeyError, after_request s (request_of "direct" params) w)) /\
  (forall z : Z,
     json_data resp = PInt z -> z <> 0 ->
     fetch_api_data requests_get "direct" params s =
       (Raise TypeError, after_request s (request_of "direct" params) w)) /\
  (forall (c : ascii) (rest : string),
     json_data resp = PStr (String c rest) ->
     fetch_api_data requests_get "direct" params s =
       (Ok (PStr (String c "")), after_request s (request_of "direct" params) w)).
Proof.
  intros H Hst. rewrite (fetch_api_data_answer _ _ _ _ _ _ H). unfold answer.
  assert ((status_code resp >=? 400)%Z = false) as -> by lia.
  split; [| split].
  - intros d -> Hne. cbn [truthy].
    rewrite bool_decide_eq_false_2; [done |]. by rewrite dom_empty_iff_L.
  - intros z -> Hz. cbn [truthy].
    by assert ((z =? 0)%Z = false) as -> by lia.
  - by intros c rest ->.
Qed.

End CallerEdges.

(** ** More on normalization and formatting *)

Section Records.

Variable repr : pyval -> string.

(** X8: the record built from a payload without the key error has the five
    keys name, lat, lon, state and country and no other (a field such as zip
    is dropped), and normalizing it again gives it back. *)
Theorem normalize_five_keys (d : gmap string pyval) :
  d !! "error" = None ->
  exists d' : gmap string pyval,
    normalize (PDict d) = Ok (PDict d') /\
    dom d' = ({[ "name"; "lat"; "lon"; "state"; "country" ]} : gset string) /\
    normalize (PDict d') = Ok (PDict d').
Proof.
  intros Herr. rewrite (normalize_payload _ Herr).
  unfold normalized, location_record. eexists. split; [reflexivity |]. split.
  - rewrite !dom_insert_L, dom_singleton_L. set_solver.
  - rewrite normalize_payload by by simplify_map_eq.
    unfold normalized, location_record. by simplify_map_eq.
Qed.

(** X9: a result without the key error that lacks one of the fields name,
    lat and lon makes [format_location] raise [KeyError]. *)
Theorem format_location_missing_field (d : gmap string pyval) :
  d !! "error" = None ->
  d !! "name" = None \/ d !! "lat" = None \/ d !! "lon" = None ->
  format_location repr (PDict d) = Raise KeyError.
Proof.
  intros Herr Hmiss. unfold format_location.
  rewrite (py_in_dict_false _ _ Herr). cbn.
  assert (Hstate : exists text : string,
    (if truthy (default PNone (d !! "state"))
     then match d !! "state" with
          | Some x => Ok x
          | None => Raise KeyError
          end ≫= (fun v => mret (", " +:+ py_str repr v))
     else mret "") = Ok text).
  { destruct (d !! "state") as [st |]; cbn; [| by eexists].
    destruct (truthy st); cbn; by eexists. }
  destruct Hstate as [text ->]. cbn.
  destruct (d !! "name") as [name |]; [| done]. cbn.
  destruct (d !! "lat") as [lat |]; [| done]. cbn.
  destruct (d !! "lon") as [lon |]; [| done].
  by destruct Hmiss as [? | [? | ?]].
Qed.

(** X10: the state is left out of the line, comma included, whenever the
    result has no state or one that Python takes for false (the empty
    string, null, 0); the line is then "Location: " + name + " - Lat: " +
    lat + ", Lon: " + lon. *)
Theorem format_location_without_state (d : gmap string pyval) name lat lon :
  d !! "error" = None ->
  d !! "name" = Some name -> d !! "lat" = Some lat -> d !! "lon" = Some lon ->
  truthy (default PNone (d !! "state")) = false ->
  format_location repr (PDict d) =
    Ok (PStr ("Location: " +:+ py_str repr name +:+ " - Lat: "
              +:+ py_str repr lat +:+ ", Lon: " +:+ py_str repr lon)).
Proof.
  intros Herr Hname Hlat Hlon Hstate.
  rewrite (format_location_fields _ _ _ _ _ Herr Hname Hlat Hlon).
  destruct (d !! "state") as [st |]; cbn in Hstate; by rewrite ?Hstate.
Qed.

End Records.

(** ** More on processing and printing *)

Section Runs.

Context {world : Type}.
Variable requests_get : request -> world -> reply * world.
Variable API_KEY : string.
Variable repr : pyval -> string.

Lemma get_location_info_stdout location (s : state) :
  stdout (get_location_info requests_get API_KEY location s).2 = stdout s.
Proof.
  rewrite get_location_info_eq, fetch_location_eq. cbn [snd].
  apply fetch_api_data_stdout.
Qed.

Lemma process_locations_cons location locations (s : state) :
  process_locations requests_get API_KEY (location :: locations) s =
  match get_location_info requests_get API_KEY location s with
  | (Ok result, s1) =>
      match process_locations requests_get API_KEY locations s1 with
      | (Ok results, s2) => (Ok (result :: results), s2)
      | (Raise e, s2) => (Raise e, s2)
      end
  | (Raise e, s1) => (Raise e, s1)
  end.
Proof.
  cbn [process_locations]. unfold mbind, M_bind.
  destruct (get_location_info requests_get API_KEY location s) as [[result | e] s1];
    [| done].
  by destruct (process_locations requests_get API_KEY locations s1) as [[results | e] s2].
Qed.

Lemma process_locations_stdout locations (s : state) :
  stdout (process_locations requests_get API_KEY locations s).2 = stdout s.
Proof.
  revert s. induction locations as [| location locations IH]; intros s; [done |].
  rewrite process_locations_cons.
  pose proof (get_location_info_stdout location s) as H1.
  destruct (get_location_info requests_get API_KEY location s) as [[result | e] s1];
    cbn [snd] in H1; [| done].
  pose proof (IH s1) as H2.
  destruct (process_locations requests_get API_KEY locations s1) as [[results | e] s2];
    cbn [snd] in *; congruence.
Qed.

(** X11: when [process_locations] returns, it returns one result per
    input and has sent one request per input, in the order of the inputs
    and each built from its input alone, whatever the replies were; it has
    printed nothing. *)
Theorem process_locations_requests locations (s : state) results s' :
  process_locations requests_get API_KEY locations s = (Ok results, s') ->
  length results = length locations /\
  sent s' = (sent s ++ map (query_request API_KEY) locations)%list /\
  stdout s' = stdout s.
Proof.
  revert s results s'.
  induction locations as [| location locations IH]; intros s results s'.
  - intros [= <- <-]. by rewrite app_nil_r.
  - rewrite process_locations_cons.
    pose proof (get_location_info_sent requests_get API_KEY location s) as Hsent.
    pose proof (get_location_info_stdout location s) as Hout.
    destruct (get_location_info requests_get API_KEY location s) as [[result | e] s1];
      [| discriminate].
    cbn [snd] in Hsent, Hout.
    destruct (process_locations requests_get API_KEY locations s1)
      as [[results1 | e] s2] eqn:Hrest; [| discriminate].
    intros [= <- <-].
    destruct (IH _ _ _ Hrest) as (Hlen & Hsent2 & Hout2).
    split; [cbn; by rewrite Hlen |]. split.
    + rewrite Hsent2, Hsent. cbn [map]. by rewrite <- app_assoc.
    + congruence.
Qed.

(** X12: [main] prints only after every input has been processed: when an
    exception comes out of the processing of some input, [main] raises it
    and has printed nothing, not even the lines of the inputs before it. *)
Theorem main_prints_nothing_on_exception locations (s : state) e s' :
  process_locations requests_get API_KEY locations s = (Raise e, s') ->
  main requests_get API_KEY repr locations s = (Raise e, s') /\
  stdout s' = stdout s.
Proof.
  intros H. split.
  - unfold main, mbind, M_bind. by rewrite H.
  - pose proof (process_locations_stdout locations s) as Hout.
    by rewrite H in Hout.
Qed.

Lemma print_results_cons result results (s : @state world) :
  print_results repr (result :: results) s =
  match format_location repr result with
  | Ok v =>
      print_results repr results
        (State (net s) (sent s) (stdout s ++ [py_str repr v])%list)
  | Raise e => (Raise e, s)
  end.
Proof.
  cbn [print_results]. unfold mbind, M_bind, lift, print.
  by destruct (format_location repr result).
Qed.

(** X13: the loop of [main] prints as it goes: when [format_location]
    raises on a result, the lines of the results before it are already
    printed, the exception comes out and the results after it are not
    printed. *)
Theorem print_results_stops_at_exception before result after lines e
  (s : @state world) :
  Forall2 (fun r line => exists v, format_location repr r = Ok v /\
                                   line = py_str repr v) before lines ->
  format_location repr result = Raise e ->
  print_results repr (before ++ result :: after) s =
    (Raise e, State (net s) (sent s) (stdout s ++ lines)%list).
Proof.
  intros Hbefore Hresult. revert s.
  induction Hbefore as [| r line before lines (v & Hv & ->) _ IH]; intros s.
  - cbn [app]. rewrite print_results_cons, Hresult, app_nil_r. by destruct s.
  - cbn [app]. rewrite print_results_cons, Hv, IH. cbn [net sent stdout].
    by rewrite <- app_assoc.
Qed.

End Runs.

(** ** Start-up *)

(** X14: the module starts exactly when the variable OPENWEATHER_API_KEY is
    set to a string that is not empty, and [API_KEY] is then that string; a
    variable set to the empty string is refused like one that is not set. *)
Theorem load_api_key_started (environ : gmap string string) (key : string) :
  load_api_key environ = Started key <->
  environ !! "OPENWEATHER_API_KEY" = Some key /\ key <> "".
Proof.
  unfold load_api_key.
  destruct (environ !! "OPENWEATHER_API_KEY") as [k |]; cbn.
  - destruct (String.eqb_spec k "") as [-> | Hne]; cbn.
    + split; [discriminate |]. intros [[= <-] H]. done.
    + split; [by intros [= <-] | by intros [[= <-] _]].
  - split; [discriminate | by intros [? _]].
Qed.

(** ** From the reply to the printed line *)

Section Lines.

Context {world : Type}.
Variable requests_get : request -> world -> reply * world.
Variable API_KEY : string.
Variable repr : pyval -> string.

Lemma main_single_error location (s : @state world) r w msg :
  requests_get (query_request API_KEY location) (net s) = (r, w) ->
  answer (query_endpoint location) r = Ok (error_record msg) ->
  main requests_get API_KEY repr [location] s =
    (Ok tt, State w (sent s ++ [query_request API_KEY location])
              (stdout s ++ [msg])).
Proof.
  intros H Ha. unfold main, mbind at 1, M_bind. cbn [process_locations].
  unfold mbind at 1, M_bind at 1.
  rewrite (get_location_info_reply _ _ _ _ _ _ H), Ha. cbn [mbind outcome_bind].
  unfold error_record.
  rewrite (normalize_error _ (PStr msg)) by apply lookup_singleton_eq.
  unfold mbind, M_bind, mret, M_ret. cbn [print_results].
  unfold mbind, M_bind, lift, print.
  rewrite (format_location_error _ _ (PStr msg)) by apply lookup_singleton_eq.
  reflexivity.
Qed.

(** X15: a failed lookup ends as one printed line: for a single input, a
    timeout prints "API request timed out", a connection
    error "API connection failed", another request exception "Unexpected API
    error", a response with status 400 or more the message for its status,
    and a response below 400 with a false body "No data returned from
    API". *)
Theorem main_error_lines location (s : @state world) r w :
  requests_get (query_request API_KEY location) (net s) = (r, w) ->
  let printed (line : string) :=
    main requests_get API_KEY repr [location] s =
      (Ok tt, State w (sent s ++ [query_request API_KEY location])
                (stdout s ++ [line])) in
  (r = inl Timeout -> printed "API request timed out") /\
  (r = inl ConnectionError -> printed "API connection failed") /\
  (r = inl RequestException -> printed "Unexpected API error") /\
  (forall resp, r = inr resp -> status_code resp = 401 ->
     printed "Invalid API key") /\
  (forall resp, r = inr resp -> status_code resp = 429 ->
     printed "API rate limit exceeded") /\
  (forall resp, r = inr resp -> 400 <= status_code resp ->
     status_code resp <> 401 -> status_code resp <> 429 ->
     printed ("API error: " +:+ int_str (status_code resp))) /\
  (forall resp, r = inr resp -> status_code resp < 400 ->
     truthy (json_data resp) = false ->
     printed "No data returned from API").
Proof.
  intros H printed. unfold printed.
  repeat apply conj.
  - intros ->. by apply (main_single_error _ _ _ _ _ H).
  - intros ->. by apply (main_single_error _ _ _ _ _ H).
  - intros ->. by apply (main_single_error _ _ _ _ _ H).
  - intros resp -> Hst. apply (main_single_error _ _ _ _ _ H).
    unfold answer, http_error_message. by rewrite Hst.
  - intros resp -> Hst. apply (main_single_error _ _ _ _ _ H).
    unfold answer, http_error_message. by rewrite Hst.
  - intros resp -> Hge H1 H2. apply (main_single_error _ _ _ _ _ H).
    unfold answer, http_error_message.
    assert ((status_code resp >=? 400)%Z = true) as -> by lia.
    assert ((status_code resp =? 401)%Z = false) as -> by lia.
    by assert ((status_code resp =? 429)%Z = false) as -> by lia.
  - intros resp -> Hlt Hfalse. apply (main_single_error _ _ _ _ _ H).
    unfold answer.
    assert ((status_code resp >=? 400)%Z = false) as -> by lia.
    by rewrite Hfalse.
Qed.

End Lines.

(** ** The further properties on sample worlds *)

Lemma query_endpoint_ascii_witness :
  string_forall (fun c => (ord c <? 128)%N) " 02138 " = true /\
  (query_endpoint " 02138 " = "zip" <->
   String.length (strip " 02138 ") = 5%nat /\
   string_forall is_decimal_digit (strip " 02138 ") = true) /\
  (query_endpoint " 02138 " = "direct" <->
   ~ (String.length (strip " 02138 ") = 5%nat /\
      string_forall is_decimal_digit (strip " 02138 ") = true)).
Proof.
  split; [reflexivity |]. apply (query_endpoint_ascii " 02138 "). reflexivity.
Defined.

Lemma blank_input_queries_direct_witness :
  string_forall isspace "   " = true /\
  sent (get_location_info metered "KEY" "   " (start 0%nat)).2 =
    [Request "http://api.openweathermap.org/geo/1.0/direct"
       {[ "q" := PStr ",US"; "limit" := PInt 1; "appid" := PStr "KEY" ]} 10].
Proof.
  split; [reflexivity |].
  apply (blank_input_queries_direct metered "KEY" "   " (start 0%nat)).
  reflexivity.
Defined.

Lemma fetch_api_data_raises_no_request_exception_witness :
  fetch_api_data (always (inr (MockResponse (PDict madison) 200))) "direct" ∅
    (start tt) =
    (Raise KeyError, after_request (start tt) (request_of "direct" ∅) tt) /\
  is_request_exception KeyError = false.
Proof.
  split; [reflexivity |].
  apply (fetch_api_data_raises_no_request_exception
           (always (inr (MockResponse (PDict madison) 200))) "direct" ∅
           (start tt) KeyError
           (after_request (start tt) (request_of "direct" ∅) tt)).
  reflexivity.
Defined.

Lemma fetch_api_data_false_body_witness :
  200 < 400 /\
  fetch_api_data (always (inr (MockResponse PNone 200))) "zip" ∅ (start tt) =
    (Ok (PDict {[ "error" := PStr "No data returned from API" ]}),
     after_request (start tt) (request_of "zip" ∅) tt).
Proof.
  split; [lia |].
  apply (fetch_api_data_false_body (always (inr (MockResponse PNone 200)))
           "zip" ∅ (start tt) (MockResponse PNone 200) tt);
    [reflexivity | simpl; lia | left; reflexivity].
Defined.

Lemma fetch_api_data_direct_not_a_list_witness :
  200 < 400 /\
  fetch_api_data (always (inr (MockResponse (PDict madison) 200))) "direct" ∅
    (start tt) =
    (Raise KeyError, after_request (start tt) (request_of "direct" ∅) tt) /\
  fetch_api_data (always (inr (MockResponse (PInt 7) 200))) "direct" ∅
    (start tt) =
    (Raise TypeError, after_request (start tt) (request_of "direct" ∅) tt) /\
  fetch_api_data (always (inr (MockResponse (PStr "Madison") 200))) "direct" ∅
    (start tt) =
    (Ok (PStr "M"), after_request (start tt) (request_of "direct" ∅) tt).
Proof.
  split; [lia |]. split; [| split].
  - apply (proj1 (fetch_api_data_direct_not_a_list
             (always (inr (MockResponse (PDict madison) 200))) ∅ (start tt)
             (MockResponse (PDict madison) 200) tt eq_refl
             ltac:(simpl; lia)) madison eq_refl).
    intros H. apply (f_equal (fun m : gmap string pyval => m !! "name")) in H.
    vm_compute in H. discriminate H.
  - apply (proj1 (proj2 (fetch_api_data_direct_not_a_list
             (always (inr (MockResponse (PInt 7) 200))) ∅ (start tt)
             (MockResponse (PInt 7) 200) tt eq_refl
             ltac:(simpl; lia))) 7 eq_refl). lia.
  - apply (proj2 (proj2 (fetch_api_data_direct_not_a_list
             (always (inr (MockResponse (PStr "Madison") 200))) ∅ (start tt)
             (MockResponse (PStr "Madison") 200) tt eq_refl
             ltac:(simpl; lia))) "M"%char "adison" eq_refl).
Defined.

Lemma normalize_five_keys_witness :
  madison_zip !! "error" = None /\
  exists d' : gmap string pyval,
    normalize (PDict madison_zip) = Ok (PDict d') /\
    dom d' = ({[ "name"; "lat"; "lon"; "state"; "country" ]} : gset string) /\
    normalize (PDict d') = Ok (PDict d').
Proof.
  split; [reflexivity |]. apply (normalize_five_keys madison_zip). reflexivity.
Defined.

Lemma format_location_missing_field_witness :
  ({[ "name" := PStr "Madison" ]} : gmap string pyval) !! "error" = None /\
  ({[ "name" := PStr "Madison" ]} : gmap string pyval) !! "lat" = None /\
  format_location sample_repr (PDict {[ "name" := PStr "Madison" ]}) =
    Raise KeyError.
Proof.
  split; [reflexivity |]. split; [reflexivity |].
  apply (format_location_missing_field sample_repr
           {[ "name" := PStr "Madison" ]});
    [reflexivity | right; left; reflexivity].
Defined.

Lemma format_location_without_state_witness :
  madison_zip !! "state" = None /\
  format_location sample_repr (PDict madison_zip) =
    Ok (PStr "Location: Madison - Lat: 43.0, Lon: -89.0").
Proof.
  split; [reflexivity |].
  apply (format_location_without_state sample_repr madison_zip
           (PStr "Madison") (PFloat (S754_finite false 43 0))
           (PFloat (S754_finite true 89 0))); reflexivity.
Defined.

Lemma process_locations_requests_witness :
  exists (results : list pyval) (s' : state),
    process_locations metered "KEY" ["53703"; "Chicago, IL"; "10001"]
      (start 0%nat) = (Ok results, s') /\
    length results = 3%nat /\
    sent s' = map (query_request "KEY") ["53703"; "Chicago, IL"; "10001"] /\
    stdout s' = [].
Proof.
  eexists. eexists. split; [vm_compute; reflexivity |].
  apply (process_locations_requests metered "KEY"
           ["53703"; "Chicago, IL"; "10001"] (start 0%nat)).
  vm_compute. reflexivity.
Defined.

Lemma main_prints_nothing_on_exception_witness :
  let upstream := always (inr (MockResponse (PList [PInt 1]) 200)) in
  let after := State tt [query_request "KEY" "Madison, WI"] [] in
  process_locations upstream "KEY" ["Madison, WI"; "53703"] (start tt) =
    (Raise TypeError, after) /\
  main upstream "KEY" sample_repr ["Madison, WI"; "53703"] (start tt) =
    (Raise TypeError, after) /\
  stdout after = [].
Proof.
  intros upstream after. split; [reflexivity |].
  apply (main_prints_nothing_on_exception upstream "KEY" sample_repr
           ["Madison, WI"; "53703"] (start tt) TypeError after).
  reflexivity.
Defined.

Lemma print_results_stops_at_exception_witness :
  format_location sample_repr (PDict {[ "name" := PStr "Madison" ]}) =
    Raise KeyError /\
  print_results sample_repr
    [PDict madison; PDict {[ "name" := PStr "Madison" ]};
     error_record "API request timed out"] (start tt) =
    (Raise KeyError,
     State tt [] ["Location: Madison, WI - Lat: 43.0, Lon: -89.0"]).
Proof.
  split; [reflexivity |].
  apply (print_results_stops_at_exception sample_repr
           [PDict madison] (PDict {[ "name" := PStr "Madison" ]})
           [error_record "API request timed out"]
           ["Location: Madison, WI - Lat: 43.0, Lon: -89.0"] KeyError
           (start tt)).
  - constructor; [| constructor]. eexists. split; reflexivity.
  - reflexivity.
Defined.

Lemma main_error_lines_witness :
  main (always (inl Timeout)) "KEY" sample_repr ["53703"] (start tt) =
    (Ok tt, State tt [query_request "KEY" "53703"] ["API request timed out"]) /\
  main (always (inr (MockResponse (PDict ∅) 503))) "KEY" sample_repr
    ["Madison, WI"] (start tt) =
    (Ok tt, State tt [query_request "KEY" "Madison, WI"] ["API error: 503"]).
Proof.
  split.
  - apply (proj1 (main_error_lines (always (inl Timeout)) "KEY" sample_repr
                    "53703" (start tt) (inl Timeout) tt eq_refl)).
    reflexivity.
  - apply (proj1 (proj2 (proj2 (proj2 (proj2 (proj2
             (main_error_lines (always (inr (MockResponse (PDict ∅) 503)))
                "KEY" sample_repr "Madison, WI" (start tt)
                (inr (MockResponse (PDict ∅) 503)) tt eq_refl))))))
             (MockResponse (PDict ∅) 503) eq_refl);
      simpl; lia.
Defined.

Lemma load_api_key_started_witness :
  load_api_key {[ "OPENWEATHER_API_KEY" := "abc123" ]} = Started "abc123" /\
  load_api_key {[ "OPENWEATHER_API_KEY" := "" ]} <> Started "" /\
  load_api_key ∅ <> Started "abc123".
Proof.
  split; [| split].
  - apply (load_api_key_started {[ "OPENWEATHER_API_KEY" := "abc123" ]} "abc123").
    split; [reflexivity | discriminate].
  - intros H.
    apply (load_api_key_started {[ "OPENWEATHER_API_KEY" := "" ]} "") in H.
    by destruct H as [_ H].
  - intros H. apply (load_api_key_started ∅ "abc123") in H.
    destruct H as [H _]. discriminate H.
Defined.


